(** * Configuration synchronisation of the Flask AppConfig demo

    A shallow embedding of [flask-app/app.py]: the fetch of one configuration
    document from the AppConfig agent, the merge of that document into the
    process-wide [current_config] dictionary (at startup and in the background
    updater), and the request handlers that read the dictionary.

    Python values are modelled as the objects [json.loads] builds; a Python
    [dict] is an association list in insertion order, looked up with Python's
    key equality.  The network is an input: every call of [requests.get] is
    given its outcome ([http_result]), and an answer says what
    [response.json()] does on its body. *)

From Stdlib Require Import ZArith List String Ascii Bool Lia.
From Stdlib Require Import Floats.SpecFloat.
Import ListNotations.
Local Open Scope string_scope.
Local Open Scope Z_scope.
#[local] Set Warnings "-register-all".

(** ** Python values *)

Module Py.

(** The objects [response.json()] can return: [None], [bool], [int],
    [float] (an IEEE double), [str], [list] and [dict] with [str] keys.
    [JObj] lists the members in document order; a name that is repeated
    takes its last value, as in [json.loads]. *)
Inductive json : Type :=
| JNull
| JBool (b : bool)
| JInt (n : Z)
| JFloat (f : spec_float)
| JStr (s : string)
| JArr (xs : list json)
| JObj (kvs : list (string * json)).

(** [bool(v)], the test of [if v:] and [not v]. *)
Definition truthy (v : json) : bool :=
  match v with
  | JNull => false
  | JBool b => b
  | JInt n => negb (n =? 0)
  | JFloat (S754_zero _) => false
  | JFloat _ => true
  | JStr EmptyString => false
  | JStr _ => true
  | JArr [] => false
  | JArr _ => true
  | JObj [] => false
  | JObj _ => true
  end.

(** The exceptions of [requests.exceptions]: all that Requests raises
    derive from [RequestException].  [JSONDecodeError] is the one
    [response.json()] raises on a body that is not JSON; it derives from
    [RequestException] through [InvalidJSONError]. *)
Inductive request_error : Type :=
| ConnectionError (msg : string)
| Timeout (msg : string)
| JSONDecodeError (msg : string)
| OtherRequestError (msg : string).

(** The exceptions of the program: the [RequestException] family, the two
    built-in ones [dict.update] and [jsonify] raise, and the ones the JSON
    parser raises besides [JSONDecodeError] ([RecursionError] on a deeply
    nested body, [ValueError] on an integer of more than 4300 digits).  Each
    derives from [Exception].  The message of an exception of [dict.update]
    is abridged: CPython also names the index of the element, its length or
    its type. *)
Inductive exn : Type :=
| RequestException (e : request_error)
| TypeError (msg : string)
| ValueError (msg : string)
| RecursionError (msg : string).

Definition is_Exception (e : exn) : bool :=
  match e with
  | RequestException _ | TypeError _ | ValueError _ | RecursionError _ => true
  end.

Definition is_RequestException (e : exn) : bool :=
  match e with
  | RequestException _ => true
  | TypeError _ | ValueError _ | RecursionError _ => false
  end.

(** *** Dictionary keys

    A key is a hashable object.  Lists and dicts are not hashable. *)
Inductive pykey : Type :=
| KNone
| KBool (b : bool)
| KInt (n : Z)
| KFloat (f : spec_float)
| KStr (s : string).

Definition key_of (v : json) : option pykey :=
  match v with
  | JNull => Some KNone
  | JBool b => Some (KBool b)
  | JInt n => Some (KInt n)
  | JFloat f => Some (KFloat f)
  | JStr s => Some (KStr s)
  | JArr _ | JObj _ => None
  end.

(** [float == int], compared exactly: [S754_finite s m e] is
    [(-1)^s * m * 2^e]. *)
Definition float_eq_int (f : spec_float) (n : Z) : bool :=
  match f with
  | S754_zero _ => n =? 0
  | S754_finite s m e =>
      let v := if s then Z.neg m else Z.pos m in
      if 0 <=? e then n =? v * 2 ^ e else n * 2 ^ (- e) =? v
  | S754_infinity _ | S754_nan => false
  end.

Definition int_of_bool (b : bool) : Z := if b then 1 else 0.

Definition is_nan (f : spec_float) : bool :=
  match f with
  | S754_nan => true
  | S754_zero _ | S754_infinity _ | S754_finite _ _ _ => false
  end.

(** Key equality, as a dict looks a key up: the same object, or an equal
    one.  [True == 1 == 1.0]; a string equals only the same string, [None]
    only [None].  [nan != nan], but every [NaN] of a document is the one
    object [json.loads] holds for the literal, so a NaN key finds a NaN
    key. *)
Definition key_eqb (a b : pykey) : bool :=
  match a, b with
  | KNone, KNone => true
  | KStr s, KStr t => String.eqb s t
  | KBool x, KBool y => Bool.eqb x y
  | KBool x, KInt n | KInt n, KBool x => int_of_bool x =? n
  | KBool x, KFloat f | KFloat f, KBool x => float_eq_int f (int_of_bool x)
  | KInt n, KInt m => n =? m
  | KInt n, KFloat f | KFloat f, KInt n => float_eq_int f n
  | KFloat f, KFloat g => SFeqb f g || (is_nan f && is_nan g)
  | _, _ => false
  end.

(** *** Dictionaries *)

Definition pydict : Type := list (pykey * json).

(** [d.get(k)]: [None] of the option is the missing key. *)
Fixpoint dict_get (k : pykey) (d : pydict) : option json :=
  match d with
  | [] => None
  | (k', v) :: d' => if key_eqb k' k then Some v else dict_get k d'
  end.

(** [d.get(k, default)]. *)
Definition dict_get_default (k : pykey) (default : json) (d : pydict) : json :=
  match dict_get k d with
  | Some v => v
  | None => default
  end.

(** [k in d]. *)
Definition dict_contains (k : pykey) (d : pydict) : bool :=
  match dict_get k d with
  | Some _ => true
  | None => false
  end.

(** [d[k] = v]: an equal key keeps its place and its key object and takes
    the new value; a new key goes to the end. *)
Fixpoint dict_set (k : pykey) (v : json) (d : pydict) : pydict :=
  match d with
  | [] => [(k, v)]
  | (k', v') :: d' =>
      if key_eqb k' k then (k', v) :: d' else (k', v') :: dict_set k v d'
  end.

(** [bool(d)]. *)
Definition dict_truthy (d : pydict) : bool :=
  match d with
  | [] => false
  | _ :: _ => true
  end.

(** The dict a JSON object denotes, and the members of a dict. *)
Definition set_member (d : pydict) (kv : string * json) : pydict :=
  dict_set (KStr (fst kv)) (snd kv) d.

Definition dict_of_members (kvs : list (string * json)) : pydict :=
  fold_left set_member kvs [].

(** [dict.update(other)] for a dict [other]: every member is stored, in
    order. *)
Definition dict_merge (d : pydict) (kvs : list (string * json)) : pydict :=
  fold_left set_member kvs d.

(** A [string] holds the UTF-8 bytes of a Python [str].  A byte [10xxxxxx]
    continues the character before it. *)
Definition is_continuation (c : ascii) : bool :=
  match c with
  | Ascii _ _ _ _ _ _ false true => true
  | _ => false
  end.

Definition continues (s : string) : bool :=
  match s with
  | String c _ => is_continuation c
  | EmptyString => false
  end.

(** The characters of a string: each byte that continues none, with the
    bytes that continue it. *)
Fixpoint code_points (s : string) : list string :=
  match s with
  | EmptyString => []
  | String c s' =>
      match code_points s' with
      | first :: others =>
          if continues s' then String c first :: others
          else String c EmptyString :: first :: others
      | [] => [String c EmptyString]
      end
  end.

(** What iterating over a [str] yields: its characters, each a [str] of
    length one. *)
Definition chars (s : string) : list json := map JStr (code_points s).

Definition key_names (d : pydict) : list json :=
  map (fun kv => match fst kv with
                 | KNone => JNull
                 | KBool b => JBool b
                 | KInt n => JInt n
                 | KFloat f => JFloat f
                 | KStr s => JStr s
                 end) d.

(** [list(v)] where it is defined: what iterating over [v] yields. *)
Definition iterate (v : json) : option (list json) :=
  match v with
  | JArr xs => Some xs
  | JStr s => Some (chars s)
  | JObj kvs => Some (key_names (dict_of_members kvs))
  | JNull | JBool _ | JInt _ | JFloat _ => None
  end.

(** [dict.update(seq)] for an iterable of pairs: element by element, each
    must be iterable, have length two and a hashable first component; the
    pairs before a bad element stay stored. *)
Fixpoint dict_merge_seq (d : pydict) (items : list json) : pydict * option exn :=
  match items with
  | [] => (d, None)
  | item :: rest =>
      match iterate item with
      | None =>
          (d, Some (TypeError "cannot convert dictionary update sequence element to a sequence"))
      | Some [k; v] =>
          match key_of k with
          | Some key => dict_merge_seq (dict_set key v d) rest
          | None => (d, Some (TypeError "unhashable type"))
          end
      | Some _ =>
          (d, Some (ValueError "dictionary update sequence element has the wrong length; 2 is required"))
      end
  end.

(** [d.update(other)]: the dictionary afterwards and the exception raised,
    if any. *)
Definition dict_update (d : pydict) (other : json) : pydict * option exn :=
  match other with
  | JObj kvs => (dict_merge d kvs, None)
  | JArr xs => dict_merge_seq d xs
  | JStr s => dict_merge_seq d (chars s)
  | JNull | JBool _ | JInt _ | JFloat _ =>
      (d, Some (TypeError "object is not iterable"))
  end.

(** The list [[name, value]], the pair [dict.update] reads a member
    from. *)
Definition pair_of_member (kv : string * json) : json :=
  JArr [JStr (fst kv); snd kv].

(** An element of an iterable of pairs read as a pair: it has two
    components and the first is hashable. *)
Definition as_pair (item : json) : option (pykey * json) :=
  match iterate item with
  | Some [k; v] =>
      match key_of k with
      | Some key => Some (key, v)
      | None => None
      end
  | _ => None
  end.

(** The pairs of a list up to its first element that is no pair. *)
Fixpoint leading_pairs (items : list json) : list (pykey * json) :=
  match items with
  | [] => []
  | item :: rest =>
      match as_pair item with
      | Some kv => kv :: leading_pairs rest
      | None => []
      end
  end.

(** [d[k] = v] for each pair, in order. *)
Definition store_all (d : pydict) (kvs : list (pykey * json)) : pydict :=
  fold_left (fun d' kv => dict_set (fst kv) (snd kv) d') kvs d.

(** *** Serialising a dict with sorted keys

    [jsonify] and the template filter [tojson] sort the items of a dict by
    key before they write them.  Strings are ordered among strings, numbers
    ([bool], [int], [float]) among numbers; any other comparison raises
    [TypeError].  One key, or none, is compared with nothing. *)
Definition is_str_key (k : pykey) : bool :=
  match k with
  | KStr _ => true
  | KNone | KBool _ | KInt _ | KFloat _ => false
  end.

Definition is_number_key (k : pykey) : bool :=
  match k with
  | KBool _ | KInt _ | KFloat _ => true
  | KNone | KStr _ => false
  end.

Definition sortable (d : pydict) : bool :=
  match d with
  | [] | [_] => true
  | _ => forallb is_str_key (map fst d) || forallb is_number_key (map fst d)
  end.

(** [json.dumps(d, sort_keys=True)] of a snapshot: the dict that is
    written, or the exception. *)
Definition dumps_sorted (d : pydict) : pydict + exn :=
  if sortable d then inl d
  else inr (TypeError "'<' not supported between the keys").

End Py.

Import Py.

(** ** ConfigFetcher: [fetch_config_from_agent] *)

Module Fetcher.

(** [os.getenv(name, default)] over the process environment. *)
Definition getenv (environ : string -> option string) (name default : string) : string :=
  match environ name with
  | Some v => v
  | None => default
  end.

Definition APPCONFIG_AGENT_URL : string := "http://localhost:2772".

Definition APPCONFIG_APPLICATION (environ : string -> option string) : string :=
  getenv environ "APPCONFIG_APPLICATION" "myapp".

Definition APPCONFIG_ENVIRONMENT (environ : string -> option string) : string :=
  getenv environ "APPCONFIG_ENVIRONMENT" "prod".

Definition APPCONFIG_PROFILE (environ : string -> option string) : string :=
  getenv environ "APPCONFIG_PROFILE" "app-config".

(** What the agent answered: the status code, the body as text, and what
    [response.json()] does on that body: it returns the document, or it
    raises.  On a body that is not JSON it raises [JSONDecodeError], which is
    a [RequestException]; the parser can also raise [RecursionError] or
    [ValueError], which are not. *)
Record response : Type := {
  status_code : Z;
  text : string;
  json_body : json + exn
}.

(** The outcome of one [requests.get(url, timeout=5)]: an answer, or one of
    the exceptions of Requests (connection refused, timeout, ...). *)
Inductive http_result : Type :=
| Answered (resp : response)
| GetRaised (e : request_error).

(** The records the fetch writes to the logger. *)
Inductive level : Type := INFO | WARNING | ERROR.

Inductive message : Type :=
| FetchingConfigFrom (url : string)
| SuccessfullyRetrievedConfig (config_data : json)
| ConfigNotModified304
| FailedToFetchConfig (status : Z) (body : string)
| ErrorFetchingConfigFromAgent (e : request_error).

Definition log_record : Type := level * message.

(** Code that logs and may raise: the records already logged go in, the
    value returned or the exception raised comes out with the records
    logged so far. *)
Definition M (A : Type) : Type := list log_record -> (A + exn) * list log_record.

Definition ret {A} (a : A) : M A := fun log => (inl a, log).

Definition raise {A} (e : exn) : M A := fun log => (inr e, log).

Definition bind {A B} (m : M A) (k : A -> M B) : M B :=
  fun log =>
    match m log with
    | (inl a, log') => k a log'
    | (inr e, log') => (inr e, log')
    end.

Notation "x <- m ;; k" := (bind m (fun x => k))
  (at level 61, m at next level, right associativity).
Notation "m ;; k" := (bind m (fun _ => k))
  (at level 61, right associativity).

Definition logger_info (m : message) : M unit := fun log => (inl tt, (log ++ [(INFO, m)])%list).

Definition logger_error (m : message) : M unit := fun log => (inl tt, (log ++ [(ERROR, m)])%list).

(** [try: body  except requests.exceptions.RequestException as e: handler]. *)
Definition try_except_RequestException {A} (body : M A) (handler : request_error -> M A) : M A :=
  fun log =>
    match body log with
    | (inr (RequestException e), log') => handler e log'
    | other => other
    end.

(** [requests.get(url, timeout=5)], answered by the network as [r]. *)
Definition requests_get (r : http_result) (url : string) (timeout : Z) : M response :=
  match r with
  | Answered resp => ret resp
  | GetRaised e => raise (RequestException e)
  end.

(** [response.json()]. *)
Definition response_json (resp : response) : M json :=
  match json_body resp with
  | inl v => ret v
  | inr e => raise e
  end.

Definition config_url (environ : string -> option string) : string :=
  APPCONFIG_AGENT_URL ++ "/applications/" ++ APPCONFIG_APPLICATION environ
    ++ "/environments/" ++ APPCONFIG_ENVIRONMENT environ
    ++ "/configurations/" ++ APPCONFIG_PROFILE environ.

(** [fetch_config_from_agent()]; [JNull] is Python's [None]. *)
Definition fetch_config_from_agent (environ : string -> option string) (r : http_result) : M json :=
  try_except_RequestException
    (let url := config_url environ in
     logger_info (FetchingConfigFrom url) ;;
     response <- requests_get r url 5 ;;
     if status_code response =? 200 then
       config_data <- response_json response ;;
       logger_info (SuccessfullyRetrievedConfig config_data) ;;
       ret config_data
     else if status_code response =? 304 then
       logger_info ConfigNotModified304 ;;
       ret JNull
     else
       logger_error (FailedToFetchConfig (status_code response) (text response)) ;;
       ret JNull)
    (fun e =>
       logger_error (ErrorFetchingConfigFromAgent e) ;;
       ret JNull).

(** One call, on an empty log: what it returns (or raises) and what it
    logs. *)
Definition fetch_outcome (environ : string -> option string) (r : http_result) : json + exn :=
  fst (fetch_config_from_agent environ r []).

Definition fetch_log (environ : string -> option string) (r : http_result) : list log_record :=
  snd (fetch_config_from_agent environ r []).

(** The fetch took one of its [logger.error] paths. *)
Definition is_error (rec : log_record) : bool :=
  match fst rec with
  | ERROR => true
  | INFO | WARNING => false
  end.

(** A process environment that sets none of the three variables. *)
Definition no_environ : string -> option string := fun _ => None.

Definition fetch_failed (environ : string -> option string) (r : http_result) : bool :=
  existsb is_error (fetch_log environ r).

(** The exception of [response.json()] that the [except] clause of the
    fetch does not name, when the answer is a 200 and has one. *)
Definition uncaught_json_error (r : http_result) : option exn :=
  match r with
  | Answered resp =>
      if status_code resp =? 200 then
        match json_body resp with
        | inr e => if is_RequestException e then None else Some e
        | inl _ => None
        end
      else None
  | GetRaised _ => None
  end.

End Fetcher.

Import Fetcher.

(** ** ConfigSynchronizer: the snapshot, [config_updater], [initialize_config] *)

Module Synchronizer.

(** The global configuration cache as the module creates it. *)
Definition current_config : pydict :=
  [ (KStr "featureXEnabled", JBool false);
    (KStr "apiUrl", JStr "https://api.example.com") ].

(** The [try] block of one iteration of [config_updater], on the snapshot
    [cfg]: the snapshot afterwards and the exception raised, if any.
    [old_config] and the logger calls of the block only feed the log. *)
Definition updater_try (environ : string -> option string) (r : http_result)
    (cfg : pydict) : pydict * option exn :=
  match fetch_outcome environ r with
  | inr e => (cfg, Some e)
  | inl new_config =>
      if truthy new_config then dict_update cfg new_config
      else (cfg, None)
  end.

(** What the thread does after the [try] statement of an iteration. *)
Inductive control : Type :=
| Sleep (seconds : Z)
| Dies (e : exn).

(** One iteration: [try: ... except Exception as e: logger.error(...)]
    followed by [time.sleep(30)]. *)
Definition updater_iteration (environ : string -> option string) (r : http_result)
    (cfg : pydict) : pydict * control :=
  match updater_try environ r cfg with
  | (cfg', None) => (cfg', Sleep 30)
  | (cfg', Some e) =>
      if is_Exception e then (cfg', Sleep 30) else (cfg', Dies e)
  end.

(** The updater thread over the outcomes of its first [length rs] fetches. *)
Inductive thread_state : Type :=
| Looping (cfg : pydict) (slept : Z)
| Dead (cfg : pydict) (e : exn).

Fixpoint config_updater (environ : string -> option string) (rs : list http_result)
    (cfg : pydict) (slept : Z) : thread_state :=
  match rs with
  | [] => Looping cfg slept
  | r :: rs' =>
      match updater_iteration environ r cfg with
      | (cfg', Sleep s) => config_updater environ rs' cfg' (slept + s)
      | (cfg', Dies e) => Dead cfg' e
      end
  end.

(** [initialize_config()]: [Running] when it returns (the updater thread is
    started), [Crashed] when an exception leaves it. *)
Inductive startup : Type :=
| Running (cfg : pydict)
| Crashed (cfg : pydict) (e : exn).

Definition initialize_config (environ : string -> option string) (r : http_result)
    (cfg : pydict) : startup :=
  match fetch_outcome environ r with
  | inr e => Crashed cfg e
  | inl initial_config =>
      if truthy initial_config then
        match dict_update cfg initial_config with
        | (cfg', None) => Running cfg'
        | (cfg', Some e) => Crashed cfg' e
        end
      else Running cfg
  end.

Definition snapshot_of (s : startup) : pydict :=
  match s with
  | Running cfg | Crashed cfg _ => cfg
  end.

(** The snapshots the process can hold: the one of the module, the one
    [initialize_config] leaves, and the one after each iteration of the
    updater. *)
Inductive reachable (environ : string -> option string) : pydict -> Prop :=
| reach_import : reachable environ current_config
| reach_startup r :
    reachable environ (snapshot_of (initialize_config environ r current_config))
| reach_iteration r cfg :
    reachable environ cfg ->
    reachable environ (fst (updater_iteration environ r cfg)).

(** The snapshot the thread holds. *)
Definition thread_snapshot (t : thread_state) : pydict :=
  match t with
  | Looping cfg _ | Dead cfg _ => cfg
  end.

End Synchronizer.

Import Synchronizer.

(** ** Request handlers *)

Module Handlers.

Definition user (id : Z) (name email role : string) : json :=
  JObj [ ("id", JInt id); ("name", JStr name); ("email", JStr email); ("role", JStr role) ].

Definition MOCK_USERS : list json :=
  [ user 1 "Alice Johnson" "alice@example.com" "admin";
    user 2 "Bob Smith" "bob@example.com" "user";
    user 3 "Carol Davis" "carol@example.com" "user";
    user 4 "David Wilson" "david@example.com" "moderator";
    user 5 "Eve Brown" "eve@example.com" "user" ].

(** A handler returns the object given to [jsonify] and the status code
    (200 when the handler names none).  [now] is [time.time()].  The dicts
    [health] and [list_users] build have string keys, which [jsonify] can
    sort. *)
Definition health (now : spec_float) (cfg : pydict) : json * Z :=
  (JObj [ ("status", JStr "healthy");
          ("timestamp", JFloat now);
          ("config_loaded", JBool (dict_truthy cfg)) ], 200).


Definition list_users (now : spec_float) (cfg : pydict) : json * Z :=
  if negb (truthy (dict_get_default (KStr "featureXEnabled") (JBool false) cfg)) then
    (JObj [ ("error", JStr "User listing feature is currently disabled");
            ("message", JStr "This feature is controlled by the 'featureXEnabled' flag in AppConfig");
            ("current_flag_value", dict_get_default (KStr "featureXEnabled") (JBool false) cfg) ],
     403)
  else
    (JObj [ ("users", JArr MOCK_USERS);
            ("total_count", JInt (Z.of_nat (List.length MOCK_USERS)));
            ("feature_enabled", JBool true);
            ("timestamp", JFloat now) ],
     200).

(** The two expressions of the template of [home] that show the state of
    the feature, [config] being [current_config]:
    ['feature-enabled' if config.featureXEnabled else 'feature-disabled'] and
    ['ENABLED' if config.featureXEnabled else 'DISABLED'].  For a dict the
    template reads the item; a missing item is undefined, which is not
    true. *)
Definition home_feature_test (cfg : pydict) : bool :=
  match dict_get (KStr "featureXEnabled") cfg with
  | Some v => truthy v
  | None => false
  end.

Definition home_status_class (cfg : pydict) : string :=
  if home_feature_test cfg then "feature-enabled" else "feature-disabled".

Definition home_status_word (cfg : pydict) : string :=
  if home_feature_test cfg then "ENABLED" else "DISABLED".

(** What the page of [home] shows of the snapshot: the configuration, by
    [config | tojson(indent=2)], then the two expressions above.  [tojson]
    sorts the keys; its exception leaves the handler before the status is
    rendered (Flask then answers 500). *)
Record home_page : Type := {
  config_shown : pydict;
  status_class : string;
  status_word : string
}.

Definition home (cfg : pydict) : home_page + exn :=
  match dumps_sorted cfg with
  | inl shown =>
      inl {| config_shown := shown;
             status_class := home_status_class cfg;
             status_word := home_status_word cfg |}
  | inr e => inr e
  end.

End Handlers.

Import Handlers.

(** ** The outcomes of a fetch as the specification names them *)

Module Spec.

Inductive reason : Type :=
| StatusAndBody (status : Z) (body : string)
| ErrorDescription (e : request_error)
| ParserError (e : exn).

Inductive FetchResult : Type :=
| Updated (document : json)
| Unchanged
| Failed (why : reason).

(** 200 with a body that parses is [Updated], 304 is [Unchanged], any other
    status is [Failed] with the status and the body, a network error or a
    body that does not parse is [Failed] with the error: an exception of
    Requests, or one of the parser that Requests does not wrap. *)
Definition classify (r : http_result) : FetchResult :=
  match r with
  | GetRaised e => Failed (ErrorDescription e)
  | Answered resp =>
      if status_code resp =? 200 then
        match json_body resp with
        | inl document => Updated document
        | inr (RequestException e) => Failed (ErrorDescription e)
        | inr e => Failed (ParserError e)
        end
      else if status_code resp =? 304 then Unchanged
      else Failed (StatusAndBody (status_code resp) (text resp))
  end.

Definition is_Failed (o : FetchResult) : bool :=
  match o with
  | Failed _ => true
  | Updated _ | Unchanged => false
  end.

(** The document an outcome carries ([None] when it carries none), what
    the fetch does for an outcome (it returns that document, or the error of
    the parser leaves it), and the records the fetch logs for it after the
    one that names the URL. *)
Definition document_of (o : FetchResult) : json :=
  match o with
  | Updated document => document
  | Unchanged | Failed _ => JNull
  end.

Definition result_of (o : FetchResult) : json + exn :=
  match o with
  | Failed (ParserError e) => inr e
  | Updated _ | Unchanged | Failed _ => inl (document_of o)
  end.

Definition records_of (o : FetchResult) : list log_record :=
  match o with
  | Updated document => [(INFO, SuccessfullyRetrievedConfig document)]
  | Unchanged => [(INFO, ConfigNotModified304)]
  | Failed (StatusAndBody status body) => [(ERROR, FailedToFetchConfig status body)]
  | Failed (ErrorDescription e) => [(ERROR, ErrorFetchingConfigFromAgent e)]
  | Failed (ParserError _) => []
  end.

(** [S'] is [S] overwritten by [D]: a key of [D] has the value of [D], any
    other key has what [S] has for it. *)
Definition overwritten_by (S D S' : pydict) : Prop :=
  forall k : pykey,
    (forall v, dict_get k D = Some v -> dict_get k S' = Some v) /\
    (dict_get k D = None -> dict_get k S' = dict_get k S).

End Spec.

Import Spec.

(** ** Answers of the agent used as examples *)

Module Scenarios.

Definition dq : string := String "034"%char EmptyString.

(** What [response.json()] raises on a body that is not JSON from its first
    character on. *)
Definition no_value : exn :=
  RequestException (JSONDecodeError "Expecting value: line 1 column 1 (char 0)").

Fixpoint repeated (n : nat) (s : string) : string :=
  match n with
  | O => EmptyString
  | S n' => s ++ repeated n' s
  end.

(** 304 with an empty body. *)
Definition not_modified : http_result :=
  Answered {| status_code := 304; text := EmptyString; json_body := inr no_value |}.

(** 500 with a body of text. *)
Definition server_error : http_result :=
  Answered {| status_code := 500; text := "Internal Server Error"; json_body := inr no_value |}.

(** No agent listens on the port. *)
Definition connection_refused : http_result :=
  GetRaised (ConnectionError "Connection refused").

(** The agent does not answer within the 5 seconds. *)
Definition read_timeout : http_result :=
  GetRaised (Timeout "Read timed out. (read timeout=5)").

(** 200 with a body that is not JSON. *)
Definition not_json : http_result :=
  Answered {| status_code := 200; text := "<html>oops</html>"; json_body := inr no_value |}.

(** 200 with a body of 2000 opening brackets: the parser gives up with
    [RecursionError]. *)
Definition too_deep : exn :=
  RecursionError
    "maximum recursion depth exceeded while decoding a JSON array from a unicode string".

Definition deep_brackets : http_result :=
  Answered {| status_code := 200; text := repeated 2000 "["; json_body := inr too_deep |}.

(** 200 with a JSON array of two pairs, the first with the key [null]. *)
Definition null_key_and_flag : http_result :=
  Answered {| status_code := 200;
              text := "[[null, 1], [" ++ dq ++ "featureXEnabled" ++ dq ++ ", true]]";
              json_body := inl (JArr [JArr [JNull; JInt 1]; JArr [JStr "featureXEnabled"; JBool true]]) |}.

(** 200 with the document that turns the feature on. *)
Definition feature_on : http_result :=
  Answered {| status_code := 200;
              text := "{" ++ dq ++ "featureXEnabled" ++ dq ++ ": true}";
              json_body := inl (JObj [("featureXEnabled", JBool true)]) |}.

(** 200 with a JSON array: a pair, then a number. *)
Definition pair_then_number : http_result :=
  Answered {| status_code := 200;
              text := "[[" ++ dq ++ "apiUrl" ++ dq ++ ", " ++ dq ++ "x" ++ dq ++ "], 5]";
              json_body := inl (JArr [JArr [JStr "apiUrl"; JStr "x"]; JInt 5]) |}.


(** 200 with an empty JSON array. *)
Definition empty_array : http_result :=
  Answered {| status_code := 200; text := "[]"; json_body := inl (JArr []) |}.

(** 200 with a document whose flag is the string [false]. *)
Definition flag_as_text : http_result :=
  Answered {| status_code := 200;
              text := "{" ++ dq ++ "featureXEnabled" ++ dq ++ ": " ++ dq ++ "false" ++ dq ++ "}";
              json_body := inl (JObj [("featureXEnabled", JStr "false")]) |}.

End Scenarios.

Import Scenarios.

(** * Properties *)

(** ** Dictionaries *)

Section DictFacts.

Lemma key_eqb_str_r (k : pykey) (s : string) :
  key_eqb k (KStr s) = true <-> k = KStr s.
Proof.
  destruct k; simpl; try (split; [discriminate | discriminate]).
  rewrite String.eqb_eq. split; intro H; [now subst | now inversion H].
Qed.

Lemma key_eqb_str_l (k : pykey) (s : string) :
  key_eqb (KStr s) k = true <-> k = KStr s.
Proof.
  destruct k; simpl; try (split; [discriminate | discriminate]).
  rewrite String.eqb_eq. split; intro H; [now subst | now inversion H].
Qed.

Lemma key_eqb_str_refl (s : string) : key_eqb (KStr s) (KStr s) = true.
Proof. apply key_eqb_str_l. reflexivity. Qed.

(** Reading after a store under a string key. *)
Lemma dict_get_set_str (d : pydict) (s : string) (v : json) (k : pykey) :
  dict_get k (dict_set (KStr s) v d) =
  if key_eqb (KStr s) k then Some v else dict_get k d.
Proof.
  induction d as [| [k0 v0] d IH]; cbn [dict_get dict_set].
  - reflexivity.
  - destruct (key_eqb k0 (KStr s)) eqn:E0; cbn [dict_get].
    + apply key_eqb_str_r in E0. subst k0.
      destruct (key_eqb (KStr s) k); reflexivity.
    + destruct (key_eqb k0 k) eqn:E1.
      * destruct (key_eqb (KStr s) k) eqn:E2; [| reflexivity].
        apply key_eqb_str_l in E2. subst k.
        rewrite E1 in E0. discriminate.
      * exact IH.
Qed.

(** The keys after a store: the same, or the same and the new one. *)
Lemma dict_set_keys (k : pykey) (v : json) (d : pydict) :
  map fst (dict_set k v d) = map fst d \/
  map fst (dict_set k v d) = (map fst d ++ [k])%list.
Proof.
  induction d as [| [k0 v0] d IH]; cbn [dict_set map fst].
  - right. reflexivity.
  - destruct (key_eqb k0 k); cbn [map fst app].
    + left. reflexivity.
    + destruct IH as [IH | IH]; rewrite IH; [left | right]; reflexivity.
Qed.

(** Membership only looks at the keys. *)
Lemma dict_contains_keys (k : pykey) (d : pydict) :
  dict_contains k d = existsb (fun k' => key_eqb k' k) (map fst d).
Proof.
  unfold dict_contains.
  induction d as [| [k0 v0] d IH]; cbn [dict_get map fst existsb].
  - reflexivity.
  - destruct (key_eqb k0 k); cbn [orb]; [reflexivity | exact IH].
Qed.

(** A store removes no key. *)
Lemma dict_set_keeps (k k' : pykey) (v : json) (d : pydict) :
  dict_contains k d = true -> dict_contains k (dict_set k' v d) = true.
Proof.
  rewrite !dict_contains_keys. intro H.
  destruct (dict_set_keys k' v d) as [E | E]; rewrite E.
  - exact H.
  - rewrite existsb_app, H. reflexivity.
Qed.

Lemma dict_merge_keeps (k : pykey) (kvs : list (string * json)) (d : pydict) :
  dict_contains k d = true -> dict_contains k (dict_merge d kvs) = true.
Proof.
  unfold dict_merge. revert d.
  induction kvs as [| kv kvs IH]; simpl; intros d H.
  - exact H.
  - apply IH. unfold set_member. apply dict_set_keeps, H.
Qed.

Lemma dict_merge_seq_keeps (k : pykey) (items : list json) (d : pydict) :
  dict_contains k d = true ->
  dict_contains k (fst (dict_merge_seq d items)) = true.
Proof.
  revert d.
  induction items as [| item rest IH]; simpl; intros d H.
  - exact H.
  - destruct (iterate item) as [[| a [| b [| c l]]] |]; simpl; try exact H.
    destruct (key_of a); simpl; [| exact H].
    apply IH, dict_set_keeps, H.
Qed.

(** [dict.update] removes no key, whether it raises or not. *)
Lemma dict_update_keeps (k : pykey) (other : json) (d : pydict) :
  dict_contains k d = true ->
  dict_contains k (fst (dict_update d other)) = true.
Proof.
  intro H.
  destruct other; simpl; try exact H.
  - apply dict_merge_seq_keeps, H.
  - apply dict_merge_seq_keeps, H.
  - apply dict_merge_keeps, H.
Qed.

(** A dictionary that holds a key is not empty. *)
Lemma dict_contains_truthy (k : pykey) (d : pydict) :
  dict_contains k d = true -> dict_truthy d = true.
Proof.
  destruct d; [discriminate | reflexivity].
Qed.

Lemma overwritten_by_lookup (S D S' : pydict) :
  (forall k, dict_get k S' =
             match dict_get k D with Some v => Some v | None => dict_get k S end) ->
  overwritten_by S D S'.
Proof.
  intros H k. rewrite H. split.
  - intros v E. rewrite E. reflexivity.
  - intros E. rewrite E. reflexivity.
Qed.

Lemma set_member_lookup (S D S' : pydict) (kv : string * json) :
  (forall k, dict_get k S' =
             match dict_get k D with Some v => Some v | None => dict_get k S end) ->
  forall k, dict_get k (set_member S' kv) =
            match dict_get k (set_member D kv) with
            | Some v => Some v
            | None => dict_get k S
            end.
Proof.
  intros H k. unfold set_member. rewrite !dict_get_set_str.
  destruct (key_eqb (KStr (fst kv)) k); [reflexivity | apply H].
Qed.

Lemma fold_set_member_lookup (kvs : list (string * json)) (S D S' : pydict) :
  (forall k, dict_get k S' =
             match dict_get k D with Some v => Some v | None => dict_get k S end) ->
  forall k, dict_get k (fold_left set_member kvs S') =
            match dict_get k (fold_left set_member kvs D) with
            | Some v => Some v
            | None => dict_get k S
            end.
Proof.
  revert D S'.
  induction kvs as [| kv kvs IH]; simpl; intros D S' H.
  - exact H.
  - apply IH. apply set_member_lookup, H.
Qed.

(** [S.update(D)] for a dict [D] overwrites [S] by [D]. *)
Lemma dict_merge_overwrites (S : pydict) (kvs : list (string * json)) :
  overwritten_by S (dict_of_members kvs) (dict_merge S kvs).
Proof.
  apply overwritten_by_lookup.
  unfold dict_merge, dict_of_members.
  apply fold_set_member_lookup. intro k. reflexivity.
Qed.

(** The first character of a string starts with its first byte. *)
Lemma code_points_head (c : ascii) (s : string) :
  exists t others, code_points (String c s) = String c t :: others.
Proof.
  cbn [code_points].
  destruct (code_points s) as [| first others].
  - exists EmptyString, []. reflexivity.
  - destruct (continues s).
    + exists first, others. reflexivity.
    + exists EmptyString, (first :: others). reflexivity.
Qed.

Lemma code_points_first_continues (s : string) (first : string) (others : list string) :
  code_points s = first :: others -> continues first = continues s.
Proof.
  destruct s as [| c s]; [discriminate |].
  destruct (code_points_head c s) as (t & others' & E).
  rewrite E. intro H. inversion H. reflexivity.
Qed.

(** Each character of a string is a string of one character. *)
Lemma code_points_single (s : string) :
  Forall (fun g => code_points g = [g]) (code_points s).
Proof.
  induction s as [| c s IH]; cbn [code_points].
  - constructor.
  - destruct (code_points s) as [| first others] eqn:E.
    + constructor; [reflexivity | constructor].
    + inversion IH as [| ? ? Hfirst Hothers]; subst.
      destruct (continues s) eqn:C.
      * constructor; [| exact Hothers].
        cbn [code_points]. rewrite Hfirst.
        rewrite (code_points_first_continues s first others E), C. reflexivity.
      * constructor; [reflexivity |].
        constructor; assumption.
Qed.

(** [dict.update] on a string stores nothing: its first character is no
    pair. *)
Lemma dict_merge_seq_chars (d : pydict) (s : string) :
  fst (dict_merge_seq d (chars s)) = d.
Proof.
  unfold chars.
  pose proof (code_points_single s) as H.
  destruct (code_points s) as [| g rest]; [reflexivity |].
  inversion H as [| ? ? Hg _]; subst.
  cbn [map dict_merge_seq iterate]. unfold chars. rewrite Hg. reflexivity.
Qed.

(** [dict.update] on a list stores the pairs up to the first element that
    is no pair, and raises unless every element is a pair. *)
Lemma dict_merge_seq_leading (items : list json) (d : pydict) :
  fst (dict_merge_seq d items) = store_all d (leading_pairs items)
  /\ (snd (dict_merge_seq d items) = None
      <-> List.length (leading_pairs items) = List.length items).
Proof.
  revert d.
  induction items as [| item rest IH]; intro d.
  - split; [reflexivity | split; reflexivity].
  - cbn [dict_merge_seq leading_pairs]. unfold as_pair.
    destruct (iterate item) as [[| a [| b [| c l]]] |];
      try (split; [reflexivity | split; intro H; discriminate H]).
    destruct (key_of a) as [key |];
      [| split; [reflexivity | split; intro H; discriminate H]].
    destruct (IH (dict_set key b d)) as [IH1 IH2].
    split; [exact IH1 |].
    cbn [List.length]. rewrite IH2. split; intro H; [now f_equal | now inversion H].
Qed.

End DictFacts.

(** ** The fetch *)

Section FetchFacts.

Variable environ : string -> option string.

(** One run of the fetch, outcome by outcome: what it returns or lets out,
    and what it logs. *)
Lemma fetch_run_from (r : http_result) (log : list log_record) :
  fetch_config_from_agent environ r log =
  (result_of (classify r),
   (log ++ (INFO, FetchingConfigFrom (config_url environ)) :: records_of (classify r))%list).
Proof.
  destruct r as [[status body parsed] | e].
  - unfold fetch_config_from_agent, classify, try_except_RequestException, bind,
      requests_get, response_json, logger_info, logger_error, ret, raise.
    cbn [status_code text json_body].
    destruct (status =? 200).
    + destruct parsed as [d | [re | m | m | m]]; rewrite <- ?app_assoc; reflexivity.
    + destruct (status =? 304); rewrite <- ?app_assoc; reflexivity.
  - unfold fetch_config_from_agent, classify, try_except_RequestException, bind,
      requests_get, logger_info, logger_error, ret, raise.
    rewrite <- app_assoc. reflexivity.
Qed.

Lemma fetch_run (r : http_result) :
  fetch_config_from_agent environ r [] =
  (result_of (classify r),
   (INFO, FetchingConfigFrom (config_url environ)) :: records_of (classify r)).
Proof. apply fetch_run_from. Qed.

Lemma fetch_outcome_classify (r : http_result) :
  fetch_outcome environ r = result_of (classify r).
Proof. unfold fetch_outcome. rewrite fetch_run. reflexivity. Qed.

Lemma fetch_log_classify (r : http_result) :
  fetch_log environ r =
  (INFO, FetchingConfigFrom (config_url environ)) :: records_of (classify r).
Proof. unfold fetch_log. rewrite fetch_run. reflexivity. Qed.

(** The fetch logs an error for every failure but an error of the parser
    that it lets out. *)
Lemma fetch_failed_classify (r : http_result) :
  fetch_failed environ r =
  match classify r with
  | Failed (ParserError _) => false
  | o => is_Failed o
  end.
Proof.
  unfold fetch_failed. rewrite fetch_log_classify.
  destruct (classify r) as [d | | [s b | e | e]]; reflexivity.
Qed.

(** The outcomes on which the fetch lets an exception out. *)
Lemma uncaught_json_error_classify (r : http_result) :
  uncaught_json_error r =
  match classify r with
  | Failed (ParserError e) => Some e
  | _ => None
  end.
Proof.
  destruct r as [[status body parsed] | e]; [| reflexivity].
  unfold uncaught_json_error, classify. cbn [status_code text json_body].
  destruct (status =? 200).
  - destruct parsed as [d | [re | m | m | m]]; reflexivity.
  - destruct (status =? 304); reflexivity.
Qed.

Lemma fetch_failed_returns_None (r : http_result) :
  fetch_failed environ r = true -> fetch_outcome environ r = inl JNull.
Proof.
  rewrite fetch_failed_classify, fetch_outcome_classify.
  destruct (classify r) as [d | | [s b | e | e]]; simpl;
    (discriminate || reflexivity).
Qed.

(** The [try] block of an iteration, by what the fetch does. *)
Lemma updater_try_classify (r : http_result) (cfg : pydict) :
  updater_try environ r cfg =
  match result_of (classify r) with
  | inr e => (cfg, Some e)
  | inl new_config =>
      if truthy new_config then dict_update cfg new_config else (cfg, None)
  end.
Proof. unfold updater_try. rewrite fetch_outcome_classify. reflexivity. Qed.

Lemma initialize_config_classify (r : http_result) (cfg : pydict) :
  initialize_config environ r cfg =
  match result_of (classify r) with
  | inr e => Crashed cfg e
  | inl initial_config =>
      if truthy initial_config then
        match dict_update cfg initial_config with
        | (cfg', None) => Running cfg'
        | (cfg', Some e) => Crashed cfg' e
        end
      else Running cfg
  end.
Proof. unfold initialize_config. rewrite fetch_outcome_classify. reflexivity. Qed.

(** An iteration when the fetch brings no value that is true: nothing is
    merged.  (An exception the fetch lets out is caught.) *)
Lemma updater_iteration_falsy (r : http_result) (cfg : pydict) :
  truthy (document_of (classify r)) = false ->
  updater_iteration environ r cfg = (cfg, Sleep 30).
Proof.
  intro H. unfold updater_iteration. rewrite updater_try_classify.
  destruct (classify r) as [d | | [s b | e | e]]; cbn [result_of document_of] in *;
    try (rewrite H; reflexivity); try reflexivity.
  destruct e; reflexivity.
Qed.

(** The startup when the fetch returns a value that is not true. *)
Lemma initialize_config_falsy (r : http_result) (cfg : pydict) (v : json) :
  result_of (classify r) = inl v ->
  truthy v = false ->
  initialize_config environ r cfg = Running cfg.
Proof.
  intros E H. rewrite initialize_config_classify, E, H. reflexivity.
Qed.

(** Every iteration ends in the sleep of 30 seconds. *)
Lemma updater_iteration_sleeps (r : http_result) (cfg : pydict) :
  snd (updater_iteration environ r cfg) = Sleep 30.
Proof.
  unfold updater_iteration.
  destruct (updater_try environ r cfg) as [cfg' [e |]]; [| reflexivity].
  destruct e; reflexivity.
Qed.

(** The thread makes every iteration asked of it. *)
Lemma config_updater_loops (rs : list http_result) (cfg : pydict) (slept : Z) :
  exists cfg', config_updater environ rs cfg slept =
               Looping cfg' (slept + 30 * Z.of_nat (List.length rs)).
Proof.
  revert cfg slept.
  induction rs as [| r rs IH]; intros cfg slept.
  - exists cfg. simpl. f_equal. lia.
  - cbn [config_updater].
    pose proof (updater_iteration_sleeps r cfg) as Hs.
    destruct (updater_iteration environ r cfg) as [cfg' c]. simpl in Hs. subst c.
    destruct (IH cfg' (slept + 30)) as [cfg'' E].
    exists cfg''. rewrite E. f_equal. cbn [List.length]. lia.
Qed.

(** The snapshot an iteration leaves is the one its [try] block leaves. *)
Lemma updater_iteration_snapshot (r : http_result) (cfg : pydict) :
  fst (updater_iteration environ r cfg) = fst (updater_try environ r cfg).
Proof.
  unfold updater_iteration.
  destruct (updater_try environ r cfg) as [cfg' [e |]]; [| reflexivity].
  destruct e; reflexivity.
Qed.

(** No iteration and no startup removes a key. *)
Lemma updater_try_keeps (k : pykey) (r : http_result) (cfg : pydict) :
  dict_contains k cfg = true ->
  dict_contains k (fst (updater_try environ r cfg)) = true.
Proof.
  intro H. rewrite updater_try_classify.
  destruct (result_of (classify r)) as [v | e]; [| exact H].
  destruct (truthy v); [| exact H].
  apply dict_update_keeps, H.
Qed.

Lemma updater_iteration_keeps (k : pykey) (r : http_result) (cfg : pydict) :
  dict_contains k cfg = true ->
  dict_contains k (fst (updater_iteration environ r cfg)) = true.
Proof.
  intro H. rewrite updater_iteration_snapshot. apply updater_try_keeps, H.
Qed.

Lemma initialize_config_keeps (k : pykey) (r : http_result) (cfg : pydict) :
  dict_contains k cfg = true ->
  dict_contains k (snapshot_of (initialize_config environ r cfg)) = true.
Proof.
  intro H. rewrite initialize_config_classify.
  destruct (result_of (classify r)) as [v | e]; [| exact H].
  destruct (truthy v); [| exact H].
  pose proof (dict_update_keeps k v cfg H) as K.
  destruct (dict_update cfg v) as [cfg' [e |]]; exact K.
Qed.

Lemma reachable_keeps (k : pykey) (cfg : pydict) :
  dict_contains k current_config = true ->
  reachable environ cfg -> dict_contains k cfg = true.
Proof.
  intros H R.
  induction R as [| r | r cfg R IH].
  - exact H.
  - apply initialize_config_keeps, H.
  - apply updater_iteration_keeps, IH.
Qed.

End FetchFacts.

(** ** The merge *)

Lemma classify_200_parsed (body : string) (document : json) :
  classify (Answered {| status_code := 200; text := body; json_body := inl document |})
  = Updated document.
Proof. reflexivity. Qed.

Lemma updater_iteration_object (environ : string -> option string) (body : string)
    (kvs : list (string * json)) (S : pydict) :
  updater_iteration environ
    (Answered {| status_code := 200; text := body; json_body := inl (JObj kvs) |}) S
  = (dict_merge S kvs, Sleep 30).
Proof.
  unfold updater_iteration. rewrite updater_try_classify, classify_200_parsed.
  destruct kvs; reflexivity.
Qed.

Lemma initialize_config_object (environ : string -> option string) (body : string)
    (kvs : list (string * json)) (S : pydict) :
  initialize_config environ
    (Answered {| status_code := 200; text := body; json_body := inl (JObj kvs) |}) S
  = Running (dict_merge S kvs).
Proof.
  rewrite initialize_config_classify, classify_200_parsed.
  destruct kvs; reflexivity.
Qed.

(** C1.  For every snapshot [S] and every document [D] the agent answers
    with status 200, the merge of one iteration of the updater, and the merge
    of the startup, give a snapshot in which every key of [D] has the value
    of [D] and every other key has the value [S] has for it; merging [{b:3}]
    into [{a:1, b:2}] gives [{a:1, b:3}]. *)
Theorem merge_is_partial (environ : string -> option string) (body : string)
    (kvs : list (string * json)) (S : pydict) :
  let r := Answered {| status_code := 200; text := body; json_body := inl (JObj kvs) |} in
  overwritten_by S (dict_of_members kvs) (fst (updater_iteration environ r S))
  /\ initialize_config environ r S = Running (fst (updater_iteration environ r S))
  /\ overwritten_by S (dict_of_members kvs) (snapshot_of (initialize_config environ r S))
  /\ fst (updater_iteration environ
            (Answered {| status_code := 200; text := body;
                         json_body := inl (JObj [("b", JInt 3)]) |})
            [(KStr "a", JInt 1); (KStr "b", JInt 2)])
     = [(KStr "a", JInt 1); (KStr "b", JInt 3)].
Proof.
  cbv zeta.
  rewrite !updater_iteration_object, initialize_config_object.
  cbn [fst snapshot_of].
  repeat split; try apply dict_merge_overwrites.
Qed.

(** ** The outcomes of the fetch *)




(** ** Failures *)

(** C3, as stated, fails: the merge of a JSON array stores the pair, raises
    on the number, and the snapshot the iteration leaves has the new
    [apiUrl]. *)
Lemma merge_error_leaves_pairs_applied :
  updater_try no_environ pair_then_number current_config
  = ([ (KStr "featureXEnabled", JBool false); (KStr "apiUrl", JStr "x") ],
     Some (TypeError "cannot convert dictionary update sequence element to a sequence"))
  /\ updater_iteration no_environ pair_then_number current_config
     = ([ (KStr "featureXEnabled", JBool false); (KStr "apiUrl", JStr "x") ], Sleep 30)
  /\ fst (updater_iteration no_environ pair_then_number current_config) <> current_config.
Proof.
  repeat split. discriminate.
Qed.

(** An exception of [dict.update] on anything but a list comes before the
    first store. *)
Lemma dict_update_raises_early (d : pydict) (other : json) (e : exn) :
  snd (dict_update d other) = Some e ->
  (forall xs, other <> JArr xs) ->
  fst (dict_update d other) = d.
Proof.
  intros H N.
  destruct other as [| b | n | f | s | xs | kvs]; try reflexivity.
  - apply dict_merge_seq_chars.
  - exfalso. apply (N xs). reflexivity.
  - discriminate H.
Qed.

Lemma updater_try_raises_early (environ : string -> option string) (r : http_result)
    (S : pydict) (e : exn) :
  snd (updater_try environ r S) = Some e ->
  (forall xs, document_of (classify r) <> JArr xs) ->
  fst (updater_iteration environ r S) = S.
Proof.
  rewrite updater_iteration_snapshot, updater_try_classify.
  destruct (classify r) as [d | | [s b | re | pe]]; cbn [result_of document_of];
    try reflexivity.
  intros H N. destruct (truthy d); [| reflexivity].
  apply (dict_update_raises_early S d e H N).
Qed.

(** An iteration on a list document: the pairs up to the first element
    that is no pair are stored, and nothing is raised only when every
    element is a pair. *)
Lemma updater_iteration_list (environ : string -> option string) (r : http_result)
    (S : pydict) (xs : list json) :
  classify r = Updated (JArr xs) ->
  fst (updater_iteration environ r S) = store_all S (leading_pairs xs)
  /\ (snd (updater_try environ r S) = None
      <-> List.length (leading_pairs xs) = List.length xs).
Proof.
  intro H. rewrite updater_iteration_snapshot, updater_try_classify, H.
  cbn [result_of document_of].
  destruct xs as [| x xs].
  - split; [reflexivity | split; reflexivity].
  - cbn [truthy dict_update]. apply dict_merge_seq_leading.
Qed.

(** C3, as the code has it.  When the fetch fails (network error, a status
    other than 200 and 304, a body that is not JSON) the iteration leaves
    the snapshot as it was.  When an exception is raised inside the [try]
    block, the snapshot is as it was if the document is not a list; for a
    list document the snapshot is the old one with the pairs stored that
    come before the first element that is no pair, and an exception is
    raised unless every element is a pair; in any case the snapshot keeps
    every key it had.  In every case the iteration ends in the sleep of 30
    seconds and the thread goes on to the next one. *)
Theorem failure_is_a_no_op (environ : string -> option string) (r : http_result)
    (S : pydict) :
  (fetch_failed environ r = true -> updater_iteration environ r S = (S, Sleep 30))
  /\ (forall e, snd (updater_try environ r S) = Some e ->
      (forall xs, document_of (classify r) <> JArr xs) ->
      fst (updater_iteration environ r S) = S)
  /\ (forall xs, classify r = Updated (JArr xs) ->
      fst (updater_iteration environ r S) = store_all S (leading_pairs xs)
      /\ (snd (updater_try environ r S) = None
          <-> List.length (leading_pairs xs) = List.length xs))
  /\ (forall e k, snd (updater_try environ r S) = Some e ->
      dict_contains k S = true ->
      dict_contains k (fst (updater_iteration environ r S)) = true)
  /\ snd (updater_iteration environ r S) = Sleep 30
  /\ (forall rs, exists S',
      config_updater environ (r :: rs) S 0
      = Looping S' (30 * Z.of_nat (List.length (r :: rs)))).
Proof.
  split; [| split; [| split; [| split; [| split]]]].
  - intro H. apply updater_iteration_falsy.
    rewrite fetch_failed_classify in H.
    destruct (classify r) as [d | | why]; [discriminate | discriminate | reflexivity].
  - apply updater_try_raises_early.
  - apply updater_iteration_list.
  - intros e k _ H. apply updater_iteration_keeps, H.
  - apply updater_iteration_sleeps.
  - intro rs. apply (config_updater_loops environ (r :: rs) S 0).
Qed.

Lemma failure_is_a_no_op_timeout :
  updater_iteration no_environ read_timeout current_config = (current_config, Sleep 30).
Proof.
  exact (proj1 (failure_is_a_no_op no_environ read_timeout current_config) eq_refl).
Defined.

(** ** The default keys *)

(** C4.  Every snapshot the process can hold, from the one of the module on
    and after any startup and any iterations of the updater, has the keys
    [featureXEnabled] and [apiUrl]. *)
Theorem defaults_always_present (environ : string -> option string) (cfg : pydict) :
  reachable environ cfg ->
  dict_contains (KStr "featureXEnabled") cfg = true
  /\ dict_contains (KStr "apiUrl") cfg = true.
Proof.
  intro R. split; apply (reachable_keeps environ _ cfg); auto.
Qed.

Lemma defaults_present_after_bad_merge :
  dict_contains (KStr "featureXEnabled")
    (fst (updater_iteration no_environ pair_then_number
            (snapshot_of (initialize_config no_environ server_error current_config)))) = true
  /\ dict_contains (KStr "apiUrl")
    (fst (updater_iteration no_environ pair_then_number
            (snapshot_of (initialize_config no_environ server_error current_config)))) = true.
Proof.
  apply (defaults_always_present no_environ).
  apply reach_iteration, reach_startup.
Defined.

(** When [response.json()] raises an exception that is no
    [RequestException], the exception leaves the fetch after the record that
    names the URL, leaves [initialize_config], and is caught by the
    updater. *)
Lemma uncaught_json_error_paths (environ : string -> option string) (r : http_result)
    (e : exn) (S : pydict) :
  uncaught_json_error r = Some e ->
  fetch_config_from_agent environ r []
  = (inr e, [ (INFO, FetchingConfigFrom (config_url environ)) ])
  /\ initialize_config environ r S = Crashed S e
  /\ updater_iteration environ r S = (S, Sleep 30).
Proof.
  intro U. rewrite uncaught_json_error_classify in U.
  unfold updater_iteration.
  rewrite fetch_run, initialize_config_classify, updater_try_classify.
  destruct (classify r) as [d | | [s b | re | pe]]; try discriminate U.
  inversion U; subst. cbn [result_of records_of].
  repeat split. destruct e; reflexivity.
Qed.

(** C5, at an input on which the code breaks it.  The agent answers the
    startup fetch with 200 and a body of 2000 opening brackets: the fetch
    fails, [response.json()] raises [RecursionError], which the [except]
    clause of the fetch does not name, and the exception leaves
    [initialize_config]: the startup does not complete. *)
Theorem startup_stops_on_parser_error :
  classify deep_brackets = Failed (ParserError too_deep)
  /\ initialize_config no_environ deep_brackets current_config
     = Crashed current_config too_deep.
Proof.
  split; [reflexivity |].
  apply (uncaught_json_error_paths no_environ deep_brackets too_deep current_config).
  reflexivity.
Qed.



(** ** The feature gate *)

Lemma dict_of_members_nonempty (k : pykey) (v : json) (kvs : list (string * json)) :
  dict_get k (dict_of_members kvs) = Some v -> kvs <> [].
Proof. intros H E. subst kvs. discriminate H. Qed.

(** C7.  While the snapshot has [featureXEnabled] false, [list_users]
    answers 403 with the denial; once an iteration of the updater has merged
    a document that has [featureXEnabled] true, [list_users] on the snapshot
    of the same process answers 200 with the users. *)
Theorem feature_gate_follows_snapshot (environ : string -> option string)
    (now : spec_float) (body : string) (kvs : list (string * json)) (cfg : pydict) :
  dict_get (KStr "featureXEnabled") cfg = Some (JBool false) ->
  dict_get (KStr "featureXEnabled") (dict_of_members kvs) = Some (JBool true) ->
  let r := Answered {| status_code := 200; text := body; json_body := inl (JObj kvs) |} in
  list_users now cfg
  = (JObj [ ("error", JStr "User listing feature is currently disabled");
            ("message", JStr "This feature is controlled by the 'featureXEnabled' flag in AppConfig");
            ("current_flag_value", JBool false) ], 403)
  /\ list_users now (fst (updater_iteration environ r cfg))
     = (JObj [ ("users", JArr MOCK_USERS);
               ("total_count", JInt 5);
               ("feature_enabled", JBool true);
               ("timestamp", JFloat now) ], 200).
Proof.
  intros Hoff Hon r. subst r. split.
  - unfold list_users, dict_get_default. rewrite Hoff. reflexivity.
  - rewrite updater_iteration_object. cbn [fst].
    destruct (dict_merge_overwrites cfg kvs (KStr "featureXEnabled")) as [Hset _].
    unfold list_users, dict_get_default. rewrite (Hset _ Hon). reflexivity.
Qed.

Lemma feature_turned_on :
  list_users (S754_zero false) [ (KStr "featureXEnabled", JBool false) ]
  = (JObj [ ("error", JStr "User listing feature is currently disabled");
            ("message", JStr "This feature is controlled by the 'featureXEnabled' flag in AppConfig");
            ("current_flag_value", JBool false) ], 403)
  /\ list_users (S754_zero false)
       (fst (updater_iteration no_environ feature_on [ (KStr "featureXEnabled", JBool false) ]))
     = (JObj [ ("users", JArr MOCK_USERS);
               ("total_count", JInt 5);
               ("feature_enabled", JBool true);
               ("timestamp", JFloat (S754_zero false)) ], 200).
Proof.
  apply (feature_gate_follows_snapshot no_environ (S754_zero false) _
           [("featureXEnabled", JBool true)] [ (KStr "featureXEnabled", JBool false) ]);
    reflexivity.
Defined.

(** ** A body that is not JSON *)

(** C8, at an input on which the code breaks it.  The agent answers 200
    with a body of 2000 opening brackets, which is not JSON:
    [response.json()] raises [RecursionError], the fetch logs no error and
    lets the exception out; at the startup it leaves [initialize_config]; in
    the loop it is caught and the snapshot stays as it was. *)
Theorem parser_error_leaves_the_fetch :
  fetch_config_from_agent no_environ deep_brackets []
  = (inr too_deep,
     [ (INFO, FetchingConfigFrom
                "http://localhost:2772/applications/myapp/environments/prod/configurations/app-config") ])
  /\ fetch_failed no_environ deep_brackets = false
  /\ initialize_config no_environ deep_brackets current_config
     = Crashed current_config too_deep
  /\ updater_iteration no_environ deep_brackets current_config
     = (current_config, Sleep 30).
Proof.
  destruct (uncaught_json_error_paths no_environ deep_brackets too_deep current_config
              eq_refl) as (F & I & U).
  split; [exact F |].
  split; [unfold fetch_failed, fetch_log; rewrite F; reflexivity |].
  split; [exact I | exact U].
Qed.

(** When the agent answers 200 with a body on which [response.json()]
    raises [JSONDecodeError], the fetch catches it, logs it at level ERROR
    and returns [None]; the iteration of the updater and the startup both
    complete with the snapshot as it was. *)
Theorem malformed_body_is_handled (environ : string -> option string)
    (body msg : string) (S : pydict) :
  let r := Answered {| status_code := 200; text := body;
                       json_body := inr (RequestException (JSONDecodeError msg)) |} in
  fetch_config_from_agent environ r []
  = (inl JNull,
     [ (INFO, FetchingConfigFrom (config_url environ));
       (ERROR, ErrorFetchingConfigFromAgent (JSONDecodeError msg)) ])
  /\ fetch_failed environ r = true
  /\ updater_iteration environ r S = (S, Sleep 30)
  /\ initialize_config environ r S = Running S.
Proof.
  cbv zeta.
  split; [reflexivity |].
  split; [reflexivity |].
  split.
  - apply updater_iteration_falsy. reflexivity.
  - apply (initialize_config_falsy environ _ S JNull); reflexivity.
Qed.

(** ** The health check *)

(** C10.  On every snapshot the process can hold, [health] answers with
    status [healthy] and [config_loaded] true. *)
Theorem health_is_always_healthy (environ : string -> option string)
    (now : spec_float) (cfg : pydict) :
  reachable environ cfg ->
  health now cfg
  = (JObj [ ("status", JStr "healthy");
            ("timestamp", JFloat now);
            ("config_loaded", JBool true) ], 200).
Proof.
  intro R. unfold health.
  rewrite (dict_contains_truthy (KStr "apiUrl") cfg).
  - reflexivity.
  - apply (reachable_keeps environ); [reflexivity | exact R].
Qed.

Lemma healthy_after_failed_startup :
  health (S754_zero false)
    (fst (updater_iteration no_environ not_json
            (snapshot_of (initialize_config no_environ read_timeout current_config))))
  = (JObj [ ("status", JStr "healthy");
            ("timestamp", JFloat (S754_zero false));
            ("config_loaded", JBool true) ], 200).
Proof.
  apply (health_is_always_healthy no_environ).
  apply reach_iteration, reach_startup.
Defined.

(** ** Further properties of the synchroniser *)

(** When the agent answers 304 the iteration leaves the snapshot as it was
    and ends in the sleep of 30 seconds. *)
Theorem unchanged_is_a_no_op (environ : string -> option string) (body : string)
    (parsed : json + exn) (S : pydict) :
  updater_iteration environ
    (Answered {| status_code := 304; text := body; json_body := parsed |}) S
  = (S, Sleep 30).
Proof. apply updater_iteration_falsy. reflexivity. Qed.




(** The updater thread makes every iteration asked of it, one sleep of 30
    seconds after each, whatever the agent answers. *)
Theorem updater_never_stops (environ : string -> option string)
    (rs : list http_result) (cfg : pydict) :
  exists cfg', config_updater environ rs cfg 0
               = Looping cfg' (30 * Z.of_nat (List.length rs)).
Proof. apply (config_updater_loops environ rs cfg 0). Qed.

(** A request that times out is a failed fetch: the fetch logs the
    exception at level ERROR and returns [None], and the iteration leaves the
    snapshot as it was. *)
Theorem timeout_is_a_failed_fetch (environ : string -> option string) (msg : string)
    (S : pydict) :
  fetch_config_from_agent environ (GetRaised (Timeout msg)) []
  = (inl JNull,
     [ (INFO, FetchingConfigFrom (config_url environ));
       (ERROR, ErrorFetchingConfigFromAgent (Timeout msg)) ])
  /\ updater_iteration environ (GetRaised (Timeout msg)) S = (S, Sleep 30).
Proof.
  split; [reflexivity |].
  apply updater_iteration_falsy. reflexivity.
Qed.



(** ** Startup and the loop side by side *)

(** For every answer of the agent, [initialize_config] makes the merge an
    iteration of the updater makes and leaves the same snapshot; it returns
    when the [try] block of the iteration raises nothing, and lets out the
    exception the iteration would catch. *)
Theorem startup_merges_like_an_iteration (environ : string -> option string)
    (r : http_result) (S : pydict) :
  snapshot_of (initialize_config environ r S) = fst (updater_iteration environ r S)
  /\ initialize_config environ r S
     = match updater_try environ r S with
       | (S', None) => Running S'
       | (S', Some e) => Crashed S' e
       end.
Proof.
  unfold updater_iteration.
  rewrite initialize_config_classify, updater_try_classify.
  destruct (result_of (classify r)) as [v | e].
  - destruct (truthy v); [| split; reflexivity].
    destruct (dict_update S v) as [S' [e |]].
    + destruct e; split; reflexivity.
    + split; reflexivity.
  - destruct e; split; reflexivity.
Qed.

(** A 200 answer whose document is not true ([null], [false], [0], an
    empty string, list or object) is logged as retrieved and then ignored:
    nothing is merged, nothing is raised, also for a document that is no
    object. *)
Theorem falsy_document_is_ignored (environ : string -> option string) (body : string)
    (document : json) (S : pydict) :
  truthy document = false ->
  let r := Answered {| status_code := 200; text := body; json_body := inl document |} in
  fetch_log environ r
  = [ (INFO, FetchingConfigFrom (config_url environ));
      (INFO, SuccessfullyRetrievedConfig document) ]
  /\ fetch_failed environ r = false
  /\ updater_try environ r S = (S, None)
  /\ updater_iteration environ r S = (S, Sleep 30)
  /\ initialize_config environ r S = Running S.
Proof.
  intros H r. subst r.
  split; [apply fetch_log_classify |].
  split; [rewrite fetch_failed_classify; reflexivity |].
  split.
  - rewrite updater_try_classify, classify_200_parsed.
    cbn [result_of document_of]. rewrite H. reflexivity.
  - split.
    + apply updater_iteration_falsy. exact H.
    + apply (initialize_config_falsy environ _ S document); [reflexivity | exact H].
Qed.

Lemma empty_array_is_ignored :
  fetch_log no_environ empty_array
  = [ (INFO, FetchingConfigFrom (config_url no_environ));
      (INFO, SuccessfullyRetrievedConfig (JArr [])) ]
  /\ fetch_failed no_environ empty_array = false
  /\ updater_try no_environ empty_array current_config = (current_config, None)
  /\ updater_iteration no_environ empty_array current_config = (current_config, Sleep 30)
  /\ initialize_config no_environ empty_array current_config = Running current_config.
Proof.
  apply (falsy_document_is_ignored no_environ "[]" (JArr []) current_config).
  reflexivity.
Defined.

(** ** The snapshot over many iterations *)

(** While every fetch fails or is answered 304, the thread keeps the
    snapshot it had, whatever it is, and sleeps 30 seconds after each
    fetch. *)
Theorem last_known_good_through_outage (environ : string -> option string)
    (rs : list http_result) (S : pydict) (slept : Z) :
  Forall (fun r => fetch_failed environ r = true \/ classify r = Unchanged) rs ->
  config_updater environ rs S slept
  = Looping S (slept + 30 * Z.of_nat (List.length rs)).
Proof.
  intro H. revert slept.
  induction H as [| r rs Hr _ IH]; intro slept.
  - simpl. f_equal. lia.
  - cbn [config_updater].
    rewrite (updater_iteration_falsy environ r S).
    + rewrite IH. f_equal. cbn [List.length]. lia.
    + destruct Hr as [Hr | Hr].
      * rewrite fetch_failed_classify in Hr.
        destruct (classify r); [discriminate | reflexivity | reflexivity].
      * rewrite Hr. reflexivity.
Qed.

Lemma outage_of_three_fetches :
  config_updater no_environ [connection_refused; not_modified; server_error]
    current_config 0
  = Looping current_config 90.
Proof.
  apply (last_known_good_through_outage no_environ
           [connection_refused; not_modified; server_error] current_config 0).
  apply Forall_cons; [left; reflexivity |].
  apply Forall_cons; [right; reflexivity |].
  apply Forall_cons; [left; reflexivity |].
  apply Forall_nil.
Defined.

Lemma dict_set_length (k : pykey) (v : json) (d : pydict) :
  (List.length d <= List.length (dict_set k v d))%nat.
Proof.
  rewrite <- (length_map fst d), <- (length_map fst (dict_set k v d)).
  destruct (dict_set_keys k v d) as [E | E]; rewrite E.
  - apply Nat.le_refl.
  - rewrite length_app. apply Nat.le_add_r.
Qed.

Lemma dict_merge_seq_length (items : list json) (d : pydict) :
  (List.length d <= List.length (fst (dict_merge_seq d items)))%nat.
Proof.
  revert d.
  induction items as [| item rest IH]; simpl; intro d.
  - apply Nat.le_refl.
  - destruct (iterate item) as [[| a [| b [| c l]]] |]; simpl; try apply Nat.le_refl.
    destruct (key_of a); simpl; [| apply Nat.le_refl].
    eapply Nat.le_trans; [apply (dict_set_length p b d) | apply IH].
Qed.

Lemma dict_merge_length (kvs : list (string * json)) (d : pydict) :
  (List.length d <= List.length (dict_merge d kvs))%nat.
Proof.
  unfold dict_merge. revert d.
  induction kvs as [| kv kvs IH]; simpl; intro d.
  - apply Nat.le_refl.
  - eapply Nat.le_trans; [apply (dict_set_length (KStr (fst kv)) (snd kv) d) | apply IH].
Qed.

Lemma dict_update_length (other : json) (d : pydict) :
  (List.length d <= List.length (fst (dict_update d other)))%nat.
Proof.
  destruct other; simpl; try apply Nat.le_refl.
  - apply dict_merge_seq_length.
  - apply dict_merge_seq_length.
  - apply dict_merge_length.
Qed.

Lemma updater_iteration_length (environ : string -> option string) (r : http_result)
    (cfg : pydict) :
  (List.length cfg <= List.length (fst (updater_iteration environ r cfg)))%nat.
Proof.
  rewrite updater_iteration_snapshot, updater_try_classify.
  destruct (result_of (classify r)) as [v | e]; [| apply Nat.le_refl].
  destruct (truthy v); [| apply Nat.le_refl].
  apply dict_update_length.
Qed.

(** The updater never removes a key: whatever the agent answers, over any
    number of iterations, a key of the snapshot stays a key of it and the
    snapshot never gets shorter. *)
Theorem updater_never_removes_a_key (environ : string -> option string)
    (rs : list http_result) (cfg : pydict) (slept : Z) :
  (forall k, dict_contains k cfg = true ->
             dict_contains k (thread_snapshot (config_updater environ rs cfg slept)) = true)
  /\ (List.length cfg
      <= List.length (thread_snapshot (config_updater environ rs cfg slept)))%nat.
Proof.
  revert cfg slept.
  induction rs as [| r rs IH]; intros cfg slept.
  - split; [intros k H; exact H | apply Nat.le_refl].
  - cbn [config_updater].
    pose proof (updater_iteration_keeps environ) as K.
    pose proof (updater_iteration_length environ r cfg) as L.
    specialize (K) with (r := r) (cfg := cfg).
    destruct (updater_iteration environ r cfg) as [cfg' c]. cbn [fst] in K, L.
    destruct c as [s | e].
    + destruct (IH cfg' (slept + s)) as [IK IL]. split.
      * intros k H. apply IK, K, H.
      * eapply Nat.le_trans; [exact L | exact IL].
    + split; [intros k H; apply K, H | exact L].
Qed.

(** ** Merges one after the other *)

Lemma dict_merge_lookup (S : pydict) (kvs : list (string * json)) (k : pykey) :
  dict_get k (dict_merge S kvs)
  = match dict_get k (dict_of_members kvs) with
    | Some v => Some v
    | None => dict_get k S
    end.
Proof.
  unfold dict_merge, dict_of_members.
  apply fold_set_member_lookup. intro k'. reflexivity.
Qed.

(** Two iterations that merge the documents [D1] and then [D2]: every key
    reads the value of [D2] if [D2] has it, else the value of [D1] if [D1]
    has it, else what the snapshot had before. *)
Theorem later_document_wins (environ : string -> option string) (body1 body2 : string)
    (kvs1 kvs2 : list (string * json)) (S : pydict) (k : pykey) :
  let r1 := Answered {| status_code := 200; text := body1; json_body := inl (JObj kvs1) |} in
  let r2 := Answered {| status_code := 200; text := body2; json_body := inl (JObj kvs2) |} in
  dict_get k (thread_snapshot (config_updater environ [r1; r2] S 0))
  = match dict_get k (dict_of_members kvs2) with
    | Some v => Some v
    | None =>
        match dict_get k (dict_of_members kvs1) with
        | Some v => Some v
        | None => dict_get k S
        end
    end.
Proof.
  cbv zeta. cbn [config_updater].
  rewrite !updater_iteration_object. cbn [thread_snapshot].
  rewrite !dict_merge_lookup. reflexivity.
Qed.

(** An agent that answers the same document again changes nothing a reader
    can see: after the second merge every key reads what it read after the
    first. *)
Theorem repeated_document_changes_nothing (environ : string -> option string)
    (body : string) (kvs : list (string * json)) (S : pydict) (k : pykey) :
  let r := Answered {| status_code := 200; text := body; json_body := inl (JObj kvs) |} in
  dict_get k (thread_snapshot (config_updater environ [r; r] S 0))
  = dict_get k (thread_snapshot (config_updater environ [r] S 0)).
Proof.
  cbv zeta. cbn [config_updater].
  rewrite !updater_iteration_object. cbn [thread_snapshot].
  rewrite !dict_merge_lookup.
  destruct (dict_get k (dict_of_members kvs)); reflexivity.
Qed.

Lemma dict_merge_seq_pairs (kvs : list (string * json)) (d : pydict) :
  dict_merge_seq d (map pair_of_member kvs) = (dict_merge d kvs, None).
Proof.
  unfold dict_merge. revert d.
  induction kvs as [| kv kvs IH]; intro d.
  - reflexivity.
  - cbn [map dict_merge_seq pair_of_member iterate key_of fold_left].
    apply IH.
Qed.

(** The merge does not ask for an object: a 200 answer whose document is a
    JSON array of [[name, value]] pairs is merged as the object with those
    members is, by the updater and by the startup. *)
Theorem array_of_pairs_merges_like_object (environ : string -> option string)
    (body1 body2 : string) (kvs : list (string * json)) (S : pydict) :
  let as_array := Answered {| status_code := 200; text := body1;
                              json_body := inl (JArr (map pair_of_member kvs)) |} in
  let as_object := Answered {| status_code := 200; text := body2;
                               json_body := inl (JObj kvs) |} in
  updater_iteration environ as_array S = updater_iteration environ as_object S
  /\ initialize_config environ as_array S = initialize_config environ as_object S.
Proof.
  cbv zeta.
  rewrite updater_iteration_object, initialize_config_object.
  unfold updater_iteration.
  rewrite initialize_config_classify, updater_try_classify, classify_200_parsed.
  cbn [result_of document_of].
  destruct kvs as [| kv kvs]; [split; reflexivity |].
  cbn [map truthy dict_update].
  change (pair_of_member kv :: map pair_of_member kvs)
    with (map pair_of_member (kv :: kvs)).
  rewrite dict_merge_seq_pairs. split; reflexivity.
Qed.

(** ** The gate and the value of the flag *)

(** The gate follows the truth value of the flag, not the boolean: once an
    iteration has merged a document with [featureXEnabled] set to [v],
    [list_users] answers 200 with the users when [v] is true as Python tests
    it (so for the string [false] too) and 403 with [v] as the current flag
    value otherwise. *)
Theorem gate_follows_truthiness (environ : string -> option string)
    (now : spec_float) (body : string) (kvs : list (string * json)) (v : json)
    (cfg : pydict) :
  dict_get (KStr "featureXEnabled") (dict_of_members kvs) = Some v ->
  let r := Answered {| status_code := 200; text := body; json_body := inl (JObj kvs) |} in
  list_users now (fst (updater_iteration environ r cfg))
  = if truthy v then
      (JObj [ ("users", JArr MOCK_USERS);
              ("total_count", JInt 5);
              ("feature_enabled", JBool true);
              ("timestamp", JFloat now) ], 200)
    else
      (JObj [ ("error", JStr "User listing feature is currently disabled");
              ("message", JStr "This feature is controlled by the 'featureXEnabled' flag in AppConfig");
              ("current_flag_value", v) ], 403).
Proof.
  intros H r. subst r.
  rewrite updater_iteration_object. cbn [fst].
  unfold list_users, dict_get_default.
  rewrite dict_merge_lookup, H.
  destruct (truthy v); reflexivity.
Qed.

Lemma flag_as_text_opens_the_gate :
  list_users (S754_zero false) (fst (updater_iteration no_environ flag_as_text current_config))
  = (JObj [ ("users", JArr MOCK_USERS);
            ("total_count", JInt 5);
            ("feature_enabled", JBool true);
            ("timestamp", JFloat (S754_zero false)) ], 200).
Proof.
  exact (gate_follows_truthiness no_environ (S754_zero false) _
           [("featureXEnabled", JStr "false")] (JStr "false") current_config eq_refl).
Defined.


(** A snapshot the updater can leave on which the page does not render
    while the gate is open: the key [None] beside the string keys. *)
Lemma home_fails_beside_an_open_gate :
  fst (updater_iteration no_environ null_key_and_flag current_config)
  = [ (KStr "featureXEnabled", JBool true);
      (KStr "apiUrl", JStr "https://api.example.com");
      (KNone, JInt 1) ]
  /\ home (fst (updater_iteration no_environ null_key_and_flag current_config))
     = inr (TypeError "'<' not supported between the keys")
  /\ snd (list_users (S754_zero false)
            (fst (updater_iteration no_environ null_key_and_flag current_config)))
     = 200.
Proof. repeat split. Qed.

(** ** The URL of the agent *)

Lemma prefix_append (s t : string) : prefix s (s ++ t) = true.
Proof.
  induction s as [| a s IH]; simpl.
  - destruct t; reflexivity.
  - destruct (ascii_dec a a) as [_ | N]; [exact IH | now contradiction N].
Qed.

(** The environment chooses the application, the environment and the
    profile, never the agent: the URL of every fetch starts with the local
    agent; with none of the three variables set it is the URL of [myapp],
    [prod], [app-config]. *)
Theorem config_url_keeps_the_agent (environ : string -> option string) :
  prefix "http://localhost:2772/applications/" (config_url environ) = true
  /\ (environ "APPCONFIG_APPLICATION" = None ->
      environ "APPCONFIG_ENVIRONMENT" = None ->
      environ "APPCONFIG_PROFILE" = None ->
      config_url environ
      = "http://localhost:2772/applications/myapp/environments/prod/configurations/app-config").
Proof.
  split.
  - exact (prefix_append "http://localhost:2772/applications/"
             (APPCONFIG_APPLICATION environ
                ++ "/environments/" ++ APPCONFIG_ENVIRONMENT environ
                ++ "/configurations/" ++ APPCONFIG_PROFILE environ)).
  - intros Ha He Hp.
    unfold config_url, APPCONFIG_APPLICATION, APPCONFIG_ENVIRONMENT, APPCONFIG_PROFILE,
      getenv.
    rewrite Ha, He, Hp. reflexivity.
Qed.

Lemma config_url_by_default :
  config_url no_environ
  = "http://localhost:2772/applications/myapp/environments/prod/configurations/app-config".
Proof.
  exact (proj2 (config_url_keeps_the_agent no_environ) eq_refl eq_refl eq_refl).
Defined.
